(** * Pair screening: cointegration, hedge ratio, stationarity, half-life

    A shallow embedding of [program/func_cointegration.py].

    - Prices, test statistics and half-lives are IEEE binary64 numbers, the
      kernel's primitive floats: comparisons with NaN are false, as in Python.
    - Exceptions are explicit: a computation returns [Ok v] or [Raise e].
    - The statistical routines of statsmodels and the sort of pandas are not
      part of this repository; they are the fields of the record [Externals],
      and every function below takes that record as its first argument. *)

From Stdlib Require Import String.
From Stdlib Require Import Floats ZArith List Bool Arith Lia.
From Stdlib Require Import Permutation Sorted.
Import ListNotations.

Local Open Scope string_scope.
Local Open Scope list_scope.
Local Open Scope nat_scope.

(** ** Numbers *)

Definition series := list float.

(** [np.log(2)], the binary64 number nearest to ln 2. *)
Definition np_log_2 : float := 0x1.62e42fefa39efp-1%float.

(** The literal [0.05] of [calculate_cointegration] as Python reads it. *)
Definition p_threshold : float := 0x1.999999999999ap-5%float.

Definition two52 : float := 0x1p52%float.

(** [round(x, 0)] on a float: the nearest integral float, ties to even; NaN
    and the infinities are returned unchanged, and the sign of the argument
    is kept.  Below 2^52 in magnitude, adding and subtracting 2^52 rounds to
    an integer in the default rounding mode; from 2^52 on every float is
    integral already. *)
Definition round0 (x : float) : float :=
  if (abs x <? two52)%float then
    let r := ((abs x + two52) - two52)%float in
    match classify x with
    | NNormal | NSubn | NZero => (- r)%float
    | _ => r
    end
  else x.

(** ** Exceptions and loops *)

Inductive exn : Type :=
| KeyError (key : string)
| IndexError
| ValueError (msg : string)
| ExternalError (msg : string).

Inductive result (A : Type) : Type :=
| Ok (a : A)
| Raise (e : exn).
Arguments Ok {A} a.
Arguments Raise {A} e.

Definition bind {A B} (m : result A) (k : A -> result B) : result B :=
  match m with
  | Ok a => k a
  | Raise e => Raise e
  end.

Notation "x <- m ;; k" := (bind m (fun x => k))
  (at level 61, m at next level, right associativity).

(** A [for] loop whose body updates the state [S] or raises. *)
Fixpoint for_each {A S} (body : A -> S -> result S) (xs : list A) (s : S)
  : result S :=
  match xs with
  | [] => Ok s
  | x :: rest => s' <- body x s ;; for_each body rest s'
  end.

(** [enumerate(xs)] *)
Definition enumerate {A} (xs : list A) : list (nat * A) :=
  combine (seq 0 (length xs)) xs.

(** ** Series and frames, as far as the program uses them *)

(** [s.shift(1)]: every value moves one row down, the first row is NaN. *)
Definition shift1 (s : series) : series :=
  match s with
  | [] => []
  | _ :: _ => nan :: removelast s
  end.

(** [s.iloc[i]] read and written. *)
Definition iloc (s : series) (i : nat) : result float :=
  match nth_error s i with
  | Some v => Ok v
  | None => Raise IndexError
  end.

Definition iloc_set (s : series) (i : nat) (v : float) : result series :=
  if i <? length s then Ok (firstn i s ++ v :: skipn (S i) s)
  else Raise IndexError.

(** Row-wise arithmetic of two series over the same index. *)
Fixpoint map2 (f : float -> float -> float) (xs ys : series) : series :=
  match xs, ys with
  | x :: xs', y :: ys' => f x y :: map2 f xs' ys'
  | _, _ => []
  end.

Definition series_sub : series -> series -> series := map2 PrimFloat.sub.
Definition series_mul : series -> series -> series := map2 PrimFloat.mul.

(** A price table: its columns in order, each a label and a series. *)
Definition DataFrame := list (string * series).

Definition columns_to_list (df : DataFrame) : list string := map fst df.

(** [df[label]] *)
Fixpoint df_get (df : DataFrame) (label : string) : result series :=
  match df with
  | [] => Raise (KeyError label)
  | (l, s) :: rest => if String.eqb l label then Ok s else df_get rest label
  end.

(** [df.loc[:, labels]] *)
Fixpoint loc_columns (df : DataFrame) (labels : list string)
  : result DataFrame :=
  match labels with
  | [] => Ok []
  | l :: rest =>
      s <- df_get df l ;;
      sub <- loc_columns df rest ;;
      Ok ((l, s) :: sub)
  end.

(** A dict with string keys, and a float array read by position. *)
Fixpoint dict_get (d : list (string * float)) (key : string) : result float :=
  match d with
  | [] => Raise (KeyError key)
  | (k, v) :: rest => if String.eqb k key then Ok v else dict_get rest key
  end.

Definition array_get (a : list float) (i : nat) : result float :=
  match nth_error a i with
  | Some v => Ok v
  | None => Raise IndexError
  end.

(** ** What the program stores *)

Record ScreeningResult := mkResult {
  base_market : string;
  quote_market : string;
  half_life : float
}.

(** The frame built from the list of result dicts: the column labels are the
    keys of the dicts, so a frame built from no dict has no column. *)
Record Frame := mkFrame {
  frame_columns : list string;
  frame_rows : list ScreeningResult
}.

Definition DataFrame_of_records (records : list ScreeningResult) : Frame :=
  match records with
  | [] => mkFrame [] []
  | _ :: _ => mkFrame ["base_market"; "quote_market"; "half_life"] records
  end.

(** ** The external routines *)

(** [coint(y0, y1)]: statistic, p-value, critical values at 1%, 5%, 10%. *)
Record CointResult := mkCoint {
  coint_t : float;
  pvalue : float;
  crit_value : list float
}.

(** [adfuller(x)]: positions 0 and 4 of the returned tuple. *)
Record ADFResult := mkADF {
  adf_stat : float;
  adf_critical_values : list (string * float)
}.

Record Externals := mkExternals {
  (* statsmodels.tsa.stattools.coint *)
  coint : series -> series -> result CointResult;
  (* statsmodels.tsa.stattools.adfuller *)
  adfuller : series -> result ADFResult;
  (* RollingOLS(endog, exog, window).fit().params.values, one row per row *)
  RollingOLS_fit : series -> series -> nat -> result series;
  (* sm.add_constant: the design matrix, as its columns *)
  add_constant : series -> list series;
  (* sm.OLS(endog, exog).fit().params *)
  OLS_fit : series -> list series -> result (list float);
  (* the row order of DataFrame.sort_values(by="half_life"), default kind *)
  sort_rows : list ScreeningResult -> list ScreeningResult
}.

(** [frame.sort_values(by=label)] for the one label the program sorts by. *)
Definition sort_values (L : Externals) (frame : Frame) (label : string)
  : result Frame :=
  if existsb (String.eqb label) (frame_columns frame)
  then Ok (mkFrame (frame_columns frame) (sort_rows L (frame_rows frame)))
  else Raise (KeyError label).

(** ** The program *)

Section Program.

Context (L : Externals).

(** Lines 15 to 26.  [res.params[1]] is the second coefficient of the fit,
    the one of the lagged spread. *)
Definition calculate_half_life (spread : series) : result float :=
  let df_spread := spread in
  let spread_lag := shift1 df_spread in
  v <- iloc spread_lag 1 ;;
  spread_lag <- iloc_set spread_lag 0 v ;;
  let spread_ret := series_sub df_spread spread_lag in
  v <- iloc spread_ret 1 ;;
  spread_ret <- iloc_set spread_ret 0 v ;;
  let spread_lag2 := add_constant L spread_lag in
  params <- OLS_fit L spread_ret spread_lag2 ;;
  slope <- array_get params 1 ;;
  Ok (round0 (- np_log_2 / slope)%float).

(** Lines 29 to 43. *)
Definition test_for_stationarity (spread : series) : result bool :=
  let is_stationary := false in
  result <- adfuller L spread ;;
  let test_statistic := adf_stat result in
  let critical_values := adf_critical_values result in
  c <- dict_get critical_values "1%" ;;
  Ok (if (test_statistic <? c)%float then true else is_stationary).

(** Lines 58 to 70.  [np.array(...).astype(np.float)] leaves a list of
    floats as it is. *)
Definition calculate_cointegration (series_1 series_2 : series) : result Z :=
  coint_res <- coint L series_1 series_2 ;;
  let coint_t := coint_t coint_res in
  let p_value := pvalue coint_res in
  critical_value <- array_get (crit_value coint_res) 1 ;;
  let t_check := (coint_t <? critical_value)%float in
  Ok (if (p_value <? p_threshold)%float && t_check then 1%Z else 0%Z).

(** Lines 74 to 95: returns the two new columns, [hedge_ratio] and
    [spread].  The regressor handed to RollingOLS is the quote column alone;
    a column assigned to a frame must have as many rows as the frame. *)
Definition calculate_hedge_ratio_and_spread
    (coint_pair_df : DataFrame) (base_market quote_market : string)
  : result (series * series) :=
  let df := coint_pair_df in
  base <- df_get df base_market ;;
  quote <- df_get df quote_market ;;
  hedge_ratio <- RollingOLS_fit L base quote 168 ;;
  if negb (length hedge_ratio =? length base)
  then Raise (ValueError "Length of values does not match length of index")
  else
    let spread := series_sub base (series_mul quote hedge_ratio) in
    Ok (hedge_ratio, spread).

(** The rows of the four-column pair frame, and [dropna] on them. *)
Definition pair_rows (base quote hedge_ratio spread : series)
  : list (float * float * float * float) :=
  combine (combine (combine base quote) hedge_ratio) spread.

Definition row_notna (r : float * float * float * float) : bool :=
  let '(b, q, h, s) := r in
  negb (is_nan b) && negb (is_nan q) && negb (is_nan h) && negb (is_nan s).

Definition dropna (rows : list (float * float * float * float)) :=
  filter row_notna rows.

(** Lines 119 to 131: the spread column of the pair after [dropna]. *)
Definition pair_spread (df_market_prices : DataFrame)
    (base_market quote_market : string) : result series :=
  coint_pair_df <- loc_columns df_market_prices [base_market; quote_market] ;;
  hs <- calculate_hedge_ratio_and_spread coint_pair_df base_market quote_market ;;
  base <- df_get coint_pair_df base_market ;;
  quote <- df_get coint_pair_df quote_market ;;
  let rows := dropna (pair_rows base quote (fst hs) (snd hs)) in
  Ok (map snd rows).

(** The test of line 140. *)
Definition out_of_bounds (half_life : float) : bool :=
  (half_life <? 0)%float || (24 <? half_life)%float.

(** Lines 111 to 150, the body of the inner loop: [continue] leaves the
    list as it is. *)
Definition screen_pair (df_market_prices : DataFrame)
    (base_market : string) (series_1 : series) (quote_market : string)
    (criteria_met_pairs : list ScreeningResult)
  : result (list ScreeningResult) :=
  series_2 <- df_get df_market_prices quote_market ;;
  coint_flag <- calculate_cointegration series_1 series_2 ;;
  if negb (coint_flag =? 1)%Z then Ok criteria_met_pairs else
  spread <- pair_spread df_market_prices base_market quote_market ;;
  stationary_flag <- test_for_stationarity spread ;;
  if negb stationary_flag then Ok criteria_met_pairs else
  half_life <- calculate_half_life spread ;;
  if out_of_bounds half_life then Ok criteria_met_pairs else
  Ok (criteria_met_pairs ++ [mkResult base_market quote_market half_life]).

End Program.

(** Lines 106 to 110: the two nested loops of
    [store_cointegration_results], for any body. *)
Definition screening_loop {S} (df_market_prices : DataFrame)
    (body : string -> series -> string -> S -> result S) (init : S)
  : result S :=
  let markets := columns_to_list df_market_prices in
  for_each
    (fun '(index, base_market) s =>
       series_1 <- df_get df_market_prices base_market ;;
       for_each (fun quote_market s' => body base_market series_1 quote_market s')
                (skipn (index + 1) markets) s)
    (enumerate (removelast markets)) init.

(** Lines 99 to 161.  The result is what was written to
    [cointegrated_pairs.csv], with the returned string. *)
Definition store_cointegration_results (L : Externals)
    (df_market_prices : DataFrame) : result (Frame * string) :=
  criteria_met_pairs <-
    screening_loop df_market_prices (screen_pair L df_market_prices) [] ;;
  let df_criteria_met := DataFrame_of_records criteria_met_pairs in
  df_criteria_met <- sort_values L df_criteria_met "half_life" ;;
  Ok (df_criteria_met, "saved").

(** ** Vocabulary of the properties *)

(** The index pairs of the specification: base index [i] from 0 to n-2,
    quote index [j] from i+1 to n-1. *)
Definition index_pairs (n : nat) : list (nat * nat) :=
  flat_map (fun i => map (pair i) (seq (i + 1) (n - 1 - i))) (seq 0 (n - 1)).

(** The pairs of labels the two loops visit, in the order they visit them. *)
Definition candidate_pairs (markets : list string) : list (string * string) :=
  flat_map
    (fun '(index, base_market) =>
       map (pair base_market) (skipn (index + 1) markets))
    (enumerate (removelast markets)).

(** One step of the loops on a pair of labels. *)
Definition visit {S} (df : DataFrame)
    (body : string -> series -> string -> S -> result S)
    (p : string * string) (s : S) : result S :=
  series_1 <- df_get df (fst p) ;; body (fst p) series_1 (snd p) s.


Definition count_defined (s : series) : nat :=
  length (filter (fun x => negb (is_nan x)) s).

(** What RollingOLS returns for a window [w] on [n] rows of data without
    gaps: one slope per row, NaN exactly on the rows before the first full
    window. *)
Definition rolling_params_shape (w n : nat) (params : series) : Prop :=
  length params = n /\
  forall i, i < n -> is_nan (nth i params nan) = (i <? w - 1).

Definition in_closed_interval (x : float) : bool :=
  (0 <=? x)%float && (x <=? 24)%float.

(** The pair has passed the cointegration and stationarity checks and its
    half-life has been computed: it is at the test of line 140. *)
Definition reaches_bounds_check (L : Externals) (df : DataFrame)
    (base_market : string) (series_1 : series) (quote_market : string)
    (hl : float) : Prop :=
  exists series_2 spread,
    df_get df quote_market = Ok series_2 /\
    calculate_cointegration L series_1 series_2 = Ok 1%Z /\
    pair_spread L df base_market quote_market = Ok spread /\
    test_for_stationarity L spread = Ok true /\
    calculate_half_life L spread = Ok hl.

(** Ascending order of [half_life] with the NaN rows last. *)
Definition half_life_le (a b : ScreeningResult) : Prop :=
  is_nan (half_life b) = true \/ (half_life a <=? half_life b)%float = true.

(** What pandas documents for [sort_values] with the default [kind]: the
    rows come back rearranged, ascending, NaN last.  Nothing is promised on
    the order of rows with equal keys. *)
Definition sort_rows_contract (L : Externals) : Prop :=
  forall rows,
    Permutation rows (sort_rows L rows) /\
    Sorted half_life_le (sort_rows L rows).


(** ** Stand-ins for the external routines

    Small executable routines with the shape of the library ones, for
    running the program on concrete tables. *)

Module Demo.

Definition all_finite (s : series) : bool :=
  forallb (fun x => (abs x <? infinity)%float) s.

Definition sum (s : series) : float := fold_left PrimFloat.add s 0%float.
Definition dot (x y : series) : float := sum (series_mul x y).
Definition count (s : series) : float := sum (map (fun _ => 1%float) s).

Definition window (i w : nat) (s : series) : series :=
  firstn w (skipn (i + 1 - w) s).

(** Rolling least squares through the origin, one slope per full window. *)
Definition rolling_params (endog exog : series) (w : nat) : series :=
  map (fun i =>
         if i + 1 <? w then nan
         else (dot (window i w exog) (window i w endog)
               / dot (window i w exog) (window i w exog))%float)
      (seq 0 (length endog)).

Definition rolling_slope (endog exog : series) (w : nat) : result series :=
  Ok (rolling_params endog exog w).

Definition with_ones (x : series) : list series :=
  [map (fun _ => 1%float) x; x].

(** Least squares on a column of ones and one regressor, in closed form. *)
Definition simple_regression (y : series) (design : list series)
  : result (list float) :=
  match design with
  | [_; x] =>
      let n := count x in
      let slope := ((n * dot x y - sum x * sum y)
                    / (n * dot x x - sum x * sum x))%float in
      Ok [((sum y - slope * sum x) / n)%float; slope]
  | _ => Raise (ExternalError "design")
  end.

(** A cointegration test with a fixed verdict; like the library it refuses
    data with gaps.  The critical values are -3.90, -3.34, -3.04. *)
Definition coint_fixed (t p : float) (y0 y1 : series) : result CointResult :=
  if all_finite y0 && all_finite y1
  then Ok (mkCoint t p [(-0x1.f333333333333p+1)%float;
                        (-0x1.ab851eb851eb8p+1)%float;
                        (-0x1.851eb851eb852p+1)%float])
  else Raise (ExternalError "MissingDataError: exog contains inf or nans").

(** A unit-root test with a fixed statistic; critical values -3.47, -2.88,
    -2.58. *)
Definition adf_fixed (t : float) (x : series) : result ADFResult :=
  Ok (mkADF t [("1%", (-0x1.bc28f5c28f5c3p+1)%float);
               ("5%", (-0x1.70a3d70a3d70ap+1)%float);
               ("10%", (-0x1.4a3d70a3d70a4p+1)%float)]).

(** Insertion sort by [half_life], NaN rows last.  With [<=] as the test a
    row is put before the rows of equal key already placed, with [<] behind
    them. *)
Fixpoint insert_by (test : float -> float -> bool) (r : ScreeningResult)
    (l : list ScreeningResult) : list ScreeningResult :=
  match l with
  | [] => [r]
  | x :: rest =>
      if test (half_life r) (half_life x) then r :: l
      else x :: insert_by test r rest
  end.

Definition is_number_row (r : ScreeningResult) : bool :=
  negb (is_nan (half_life r)).
Definition is_nan_row (r : ScreeningResult) : bool := is_nan (half_life r).

Definition sort_by (test : float -> float -> bool)
    (l : list ScreeningResult) : list ScreeningResult :=
  fold_right (insert_by test) [] (filter is_number_row l)
  ++ filter is_nan_row l.

Definition sort_keeping_ties := sort_by PrimFloat.leb.

(** Every pair passes the cointegration and stationarity checks. *)
Definition lib : Externals :=
  mkExternals (coint_fixed (-5) 0x1p-10) (adf_fixed (-4))
              rolling_slope with_ones simple_regression sort_keeping_ties.


(** No pair passes the cointegration check: p-value 0.5. *)
Definition lib_no_coint : Externals :=
  mkExternals (coint_fixed (-1) 0x1p-1) (adf_fixed (-4))
              rolling_slope with_ones simple_regression sort_keeping_ties.

(** The statistic lies between the 1% and the 5% critical value of the
    unit-root test. *)
Definition lib_adf_between : Externals :=
  mkExternals (coint_fixed (-5) 0x1p-10) (adf_fixed (-3))
              rolling_slope with_ones simple_regression sort_keeping_ties.

Definition rows := 176.

Definition flat : series := map (fun _ => 100%float) (seq 0 rows).

Definition zigzag : series :=
  map (fun i => if Nat.even i then 101%float else 99%float) (seq 0 rows).

Definition wave : series :=
  map (fun i => match i mod 4 with
                | 0 => 102%float
                | 1 => 101%float
                | 2 => 98%float
                | _ => 99%float
                end) (seq 0 rows).

(** [flat] with a missing first observation. *)
Definition gap : series := nan :: tl flat.

Definition table : DataFrame :=
  [("A", zigzag); ("B", flat); ("C", flat); ("D", wave)].

Definition table_two : DataFrame := [("A", zigzag); ("B", flat)].

Definition table_gap : DataFrame :=
  [("A", zigzag); ("G", gap); ("B", flat)].

End Demo.

(** ** The rolling z-score

    [Series.rolling(window).mean()] and [.std()] are pandas routines; they
    are the fields of the record [Rolling]. *)

Record Rolling := mkRolling {
  rolling_mean : series -> nat -> result series;
  rolling_std : series -> nat -> result series
}.

Definition series_div : series -> series -> series := map2 PrimFloat.div.

(** Lines 47 to 54. *)
Definition calculate_zscore (R : Rolling) (spread : series) (window : nat)
  : result series :=
  let spread_series := spread in
  mean <- rolling_mean R spread_series window ;;
  std <- rolling_std R spread_series window ;;
  x <- rolling_mean R spread_series 1 ;;
  let zscore := series_div (series_sub x mean) std in
  Ok zscore.

(** ** Further vocabulary *)

(** The two series [calculate_half_life] hands to the regression, in closed
    form: the lag with its first row filled, and the differences with their
    first row filled. *)
Definition filled_lag (spread : series) : series :=
  match spread with
  | [] => []
  | s0 :: _ => s0 :: removelast spread
  end.

Definition filled_diff (spread : series) : series :=
  match spread with
  | s0 :: s1 :: rest =>
      (s1 - s0)%float :: map2 PrimFloat.sub (s1 :: rest) (removelast spread)
  | _ => []
  end.

(** [l1] is [l2] with some elements left out. *)
Inductive subsequence {A : Type} : list A -> list A -> Prop :=
| subsequence_nil : subsequence [] []
| subsequence_skip (x : A) (l1 l2 : list A) :
    subsequence l1 l2 -> subsequence l1 (x :: l2)
| subsequence_take (x : A) (l1 l2 : list A) :
    subsequence l1 l2 -> subsequence (x :: l1) (x :: l2).

Definition pair_of (r : ScreeningResult) : string * string :=
  (base_market r, quote_market r).

Definition in_bounds_or_nan (x : float) : Prop :=
  is_nan x = true \/ in_closed_interval x = true.

(** Further stand-ins. *)
Module Probe.

(** The tests return NaN statistics. *)
Definition lib_nan_statistics : Externals :=
  mkExternals (Demo.coint_fixed nan 0x1p-10) (Demo.adf_fixed nan)
              Demo.rolling_slope Demo.with_ones Demo.simple_regression
              Demo.sort_keeping_ties.

(** The regression returns the given coefficients. *)
Definition lib_with_params (params : list float) : Externals :=
  mkExternals (Demo.coint_fixed (-5) 0x1p-10) (Demo.adf_fixed (-4))
              Demo.rolling_slope Demo.with_ones (fun _ _ => Ok params)
              Demo.sort_keeping_ties.

(** Rolling mean and sample standard deviation, window by window. *)
Definition mean_of (s : series) : float := (Demo.sum s / Demo.count s)%float.

Definition std_of (s : series) : float :=
  let m := mean_of s in
  sqrt (Demo.sum (map (fun v => ((v - m) * (v - m))%float) s)
        / (Demo.count s - 1))%float.

Definition rolling_values (f : series -> float) (s : series) (w : nat)
  : series :=
  map (fun i => if i + 1 <? w then nan else f (Demo.window i w s))
      (seq 0 (length s)).

Definition rolling_apply (f : series -> float) (s : series) (w : nat)
  : result series :=
  Ok (rolling_values f s w).

Definition sample : series := [1; 2; 4; 4; 4; 7]%float.

Definition rolling : Rolling :=
  mkRolling (rolling_apply mean_of) (rolling_apply std_of).

End Probe.

(** * Properties *)

(** ** The program on small inputs *)

Example round0_half_even :
  map round0 [0x1.4p+1; 0x1.cp+1; -0x1.4p+1; 0x1p-1; 0x1.8p+0]%float
  = [2; 4; -2; 0; 2]%float.
Proof. reflexivity. Qed.

Example round0_keeps_special_values :
  map round0 [nan; infinity; neg_infinity; (-0)%float]
  = [nan; infinity; neg_infinity; (-0)%float].
Proof. reflexivity. Qed.

(** The spread 8, 4, 2, 1 halves at every step: slope -1/2, half-life
    round(1.386) = 1. *)
Example half_life_of_halving_spread :
  calculate_half_life Demo.lib [8; 4; 2; 1]%float = Ok 1%float.
Proof. vm_compute. reflexivity. Qed.

(** A zero slope gives an infinite negative half-life, which the bounds check
    rejects. *)
Example half_life_of_zero_slope :
  round0 (- np_log_2 / 0)%float = neg_infinity /\
  out_of_bounds neg_infinity = true.
Proof. split; reflexivity. Qed.

Example screening_of_demo_table :
  store_cointegration_results Demo.lib Demo.table
  = Ok (mkFrame ["base_market"; "quote_market"; "half_life"]
          [mkResult "A" "B" 0; mkResult "A" "C" 0; mkResult "A" "D" 1;
           mkResult "B" "D" 1; mkResult "C" "D" 1; mkResult "B" "C" nan],
        "saved").
Proof. vm_compute. reflexivity. Qed.

(** ** Comparisons of binary64 numbers *)

Lemma SFcompare_swap (x y : spec_float) :
  SFcompare y x = option_map CompOpp (SFcompare x y).
Proof.
  destruct x as [sx | sx | | sx mx ex], y as [sy | sy | | sy my ey];
    simpl; try reflexivity;
    try (destruct sx; reflexivity);
    try (destruct sy; reflexivity);
    try (destruct sx, sy; reflexivity).
  destruct sx, sy; simpl; try reflexivity;
    rewrite (Z.compare_antisym ex ey);
    destruct (ex ?= ey)%Z eqn:E; simpl; try reflexivity; f_equal;
    change (Pos.compare_cont Eq my mx) with (Pos.compare my mx);
    change (Pos.compare_cont Eq mx my) with (Pos.compare mx my);
    now rewrite (Pos.compare_antisym mx my).
Qed.

Lemma SFcompare_none (x y : spec_float) :
  SFcompare x y = None <-> x = S754_nan \/ y = S754_nan.
Proof.
  destruct x as [sx | sx | | sx mx ex], y as [sy | sy | | sy my ey];
    simpl; split; intros H; try discriminate; auto;
    destruct H; discriminate.
Qed.

Lemma SFcompare_refl (x : spec_float) :
  x <> S754_nan -> SFcompare x x = Some Eq.
Proof.
  destruct x as [s | s | | s m e]; simpl; intros H;
    try reflexivity; try congruence.
  - destruct s; reflexivity.
  - rewrite Z.compare_refl.
    change (Pos.compare_cont Eq m m) with (Pos.compare m m).
    rewrite Pos.compare_refl. destruct s; reflexivity.
Qed.

Lemma is_nan_spec (x : float) :
  is_nan x = true <-> Prim2SF x = S754_nan.
Proof.
  unfold is_nan. rewrite FloatAxioms.eqb_spec. unfold SFeqb. split.
  - intros H. destruct (Prim2SF x) eqn:E; try reflexivity;
      rewrite SFcompare_refl in H by discriminate; discriminate.
  - intros ->. reflexivity.
Qed.

Lemma is_nan_false (x : float) :
  is_nan x = false <-> Prim2SF x <> S754_nan.
Proof.
  rewrite <- is_nan_spec. destruct (is_nan x); split; congruence.
Qed.

Lemma ltb_nan_l (x y : float) : is_nan x = true -> (x <? y)%float = false.
Proof.
  rewrite is_nan_spec, FloatAxioms.ltb_spec. unfold SFltb. now intros ->.
Qed.

Lemma ltb_nan_r (x y : float) : is_nan y = true -> (x <? y)%float = false.
Proof.
  rewrite is_nan_spec, FloatAxioms.ltb_spec. unfold SFltb. intros ->.
  now destruct (Prim2SF x).
Qed.

Lemma leb_nan_l (x y : float) : is_nan x = true -> (x <=? y)%float = false.
Proof.
  rewrite is_nan_spec, FloatAxioms.leb_spec. unfold SFleb. now intros ->.
Qed.

Lemma leb_nan_r (x y : float) : is_nan y = true -> (x <=? y)%float = false.
Proof.
  rewrite is_nan_spec, FloatAxioms.leb_spec. unfold SFleb. intros ->.
  now destruct (Prim2SF x).
Qed.

(** On numbers, [x < y] is the negation of [y <= x]. *)
Lemma ltb_negb_leb (x y : float) :
  is_nan x = false -> is_nan y = false ->
  (x <? y)%float = negb (y <=? x)%float.
Proof.
  rewrite !is_nan_false, FloatAxioms.ltb_spec, FloatAxioms.leb_spec. unfold SFltb, SFleb.
  intros Hx Hy. rewrite (SFcompare_swap (Prim2SF x) (Prim2SF y)).
  destruct (SFcompare (Prim2SF x) (Prim2SF y)) as [[ | | ] | ] eqn:E;
    try reflexivity.
  apply SFcompare_none in E. tauto.
Qed.

Lemma ltb_leb (x y : float) : (x <? y)%float = true -> (x <=? y)%float = true.
Proof.
  rewrite FloatAxioms.ltb_spec, FloatAxioms.leb_spec. unfold SFltb, SFleb.
  now destruct (SFcompare (Prim2SF x) (Prim2SF y)) as [[ | | ] | ].
Qed.

(** With or without NaN, [x <= y] excludes [y < x]. *)
Lemma leb_not_ltb (x y : float) :
  (x <=? y)%float = true -> (y <? x)%float = false.
Proof.
  rewrite FloatAxioms.ltb_spec, FloatAxioms.leb_spec. unfold SFltb, SFleb.
  rewrite (SFcompare_swap (Prim2SF x) (Prim2SF y)).
  now destruct (SFcompare (Prim2SF x) (Prim2SF y)) as [[ | | ] | ].
Qed.

Lemma leb_is_number (x y : float) :
  (x <=? y)%float = true -> is_nan x = false /\ is_nan y = false.
Proof.
  intros H. split.
  - destruct (is_nan x) eqn:E; [ | reflexivity ].
    now rewrite (leb_nan_l x y E) in H.
  - destruct (is_nan y) eqn:E; [ | reflexivity ].
    now rewrite (leb_nan_r x y E) in H.
Qed.

(** The test of line 140 on a number is the complement of [0, 24]. *)
Lemma out_of_bounds_number (x : float) :
  is_nan x = false -> out_of_bounds x = negb (in_closed_interval x).
Proof.
  intros Hx. unfold out_of_bounds, in_closed_interval.
  rewrite (ltb_negb_leb x 0 Hx eq_refl), (ltb_negb_leb 24 x eq_refl Hx).
  now rewrite negb_andb.
Qed.

Lemma out_of_bounds_nan (x : float) :
  is_nan x = true -> out_of_bounds x = false.
Proof.
  intros Hx. unfold out_of_bounds.
  now rewrite (ltb_nan_l x 0 Hx), (ltb_nan_r 24 x Hx).
Qed.

(** ** The two decision rules *)

(** C1.  Whenever the Engle-Granger test returns a statistic, a p-value and
    its table of three critical values, [calculate_cointegration] returns a
    flag that is 1 exactly when the p-value is strictly below 0.05 and the
    statistic is strictly below the middle (5%) entry of the table, and 0
    otherwise; the 1% and 10% entries play no part. *)
Theorem calculate_cointegration_rule
    (L : Externals) (series_1 series_2 : series) (r : CointResult)
    (c1 c5 c10 : float) :
  coint L series_1 series_2 = Ok r ->
  crit_value r = [c1; c5; c10] ->
  exists flag,
    calculate_cointegration L series_1 series_2 = Ok flag /\
    (flag = 1%Z <->
       (pvalue r <? p_threshold)%float = true /\
       (coint_t r <? c5)%float = true) /\
    (flag <> 1%Z -> flag = 0%Z).
Proof.
  intros Hc Hcrit. unfold calculate_cointegration.
  rewrite Hc. cbn [bind]. rewrite Hcrit. cbn [array_get nth_error bind].
  eexists. split; [ reflexivity | ].
  destruct (pvalue r <? p_threshold)%float, (coint_t r <? c5)%float;
    cbn [andb]; (split; [ split | ]); intros; try tauto; try lia;
    try reflexivity; try (split; reflexivity); try discriminate;
    try (destruct H; discriminate).
Qed.

Lemma calculate_cointegration_rule_witness :
  exists flag,
    calculate_cointegration Demo.lib Demo.zigzag Demo.flat = Ok flag /\
    (flag = 1%Z <->
       (0x1p-10 <? p_threshold)%float = true /\
       (-5 <? -0x1.ab851eb851eb8p+1)%float = true) /\
    (flag <> 1%Z -> flag = 0%Z).
Proof.
  apply (calculate_cointegration_rule Demo.lib Demo.zigzag Demo.flat
           (mkCoint (-5) 0x1p-10
              [(-0x1.f333333333333p+1)%float;
               (-0x1.ab851eb851eb8p+1)%float;
               (-0x1.851eb851eb852p+1)%float])
           (-0x1.f333333333333p+1) (-0x1.ab851eb851eb8p+1)
           (-0x1.851eb851eb852p+1)).
  - vm_compute. reflexivity.
  - reflexivity.
Defined.

(** C2.  Whenever the Augmented Dickey-Fuller test returns a statistic and
    its critical values, [test_for_stationarity] returns True exactly when
    the statistic is strictly below the 1% critical value; a statistic at or
    above the 1% value and below the 5% value gives False. *)
Theorem test_for_stationarity_rule
    (L : Externals) (spread : series) (r : ADFResult) (c1 : float) :
  adfuller L spread = Ok r ->
  dict_get (adf_critical_values r) "1%" = Ok c1 ->
  exists answer,
    test_for_stationarity L spread = Ok answer /\
    (answer = true <-> (adf_stat r <? c1)%float = true) /\
    (forall c5,
        dict_get (adf_critical_values r) "5%" = Ok c5 ->
        (c1 <=? adf_stat r)%float = true ->
        (adf_stat r <? c5)%float = true ->
        answer = false).
Proof.
  intros Ha Hc. unfold test_for_stationarity.
  rewrite Ha. cbn [bind]. rewrite Hc. cbn [bind].
  eexists. split; [ reflexivity | ]. split.
  - destruct (adf_stat r <? c1)%float; tauto.
  - intros c5 _ Hge _. now rewrite (leb_not_ltb _ _ Hge).
Qed.

Lemma test_for_stationarity_rule_witness :
  exists answer,
    test_for_stationarity Demo.lib_adf_between Demo.flat = Ok answer /\
    (answer = true <-> (-3 <? -0x1.bc28f5c28f5c3p+1)%float = true) /\
    (forall c5,
        dict_get [("1%", (-0x1.bc28f5c28f5c3p+1)%float);
                  ("5%", (-0x1.70a3d70a3d70ap+1)%float);
                  ("10%", (-0x1.4a3d70a3d70a4p+1)%float)] "5%" = Ok c5 ->
        (-0x1.bc28f5c28f5c3p+1 <=? -3)%float = true ->
        (-3 <? c5)%float = true ->
        answer = false).
Proof.
  apply (test_for_stationarity_rule Demo.lib_adf_between Demo.flat
           (mkADF (-3) [("1%", (-0x1.bc28f5c28f5c3p+1)%float);
                        ("5%", (-0x1.70a3d70a3d70ap+1)%float);
                        ("10%", (-0x1.4a3d70a3d70a4p+1)%float)])
           (-0x1.bc28f5c28f5c3p+1)).
  - reflexivity.
  - reflexivity.
Defined.

(** ** The half-life estimate *)



Lemma length_map2 (f : float -> float -> float) (xs ys : series) :
  length (map2 f xs ys) = Nat.min (length xs) (length ys).
Proof.
  revert ys. induction xs as [ | x xs IH]; intros [ | y ys];
    cbn [map2 length]; try reflexivity.
  rewrite IH. reflexivity.
Qed.

Lemma nth_map2 (f : float -> float -> float) (xs ys : series) (i : nat)
    (d : float) :
  i < length xs -> i < length ys ->
  nth i (map2 f xs ys) d = f (nth i xs d) (nth i ys d).
Proof.
  revert ys i. induction xs as [ | x xs IH]; intros [ | y ys] i Hx Hy;
    cbn [length] in *; try lia.
  destruct i as [ | i]; [ reflexivity | ].
  cbn [map2 nth]. apply IH; lia.
Qed.



(** ** Hedge ratio and spread *)



Lemma sub_nan_r (x y : float) : is_nan y = true -> is_nan (x - y)%float = true.
Proof.
  rewrite !is_nan_spec, sub_spec. intros ->. unfold SF64sub.
  now destruct (Prim2SF x).
Qed.

(** A list that is undefined exactly on its first [m] rows has
    [length - m] defined rows. *)
Lemma count_defined_after (l : series) (m : nat) :
  (forall i, i < length l -> is_nan (nth i l nan) = (i <? m)) ->
  count_defined l = length l - m.
Proof.
  unfold count_defined. revert m.
  induction l as [ | x l IH]; intros m H; [ reflexivity | ].
  cbn [filter length].
  pose proof (H 0 ltac:(cbn [length]; lia)) as H0. cbn [nth] in H0.
  destruct m as [ | m]; cbn in H0; rewrite H0; cbn [negb length].
  - rewrite (IH 0); [ lia | ].
    intros i Hi. apply (H (S i)). cbn [length]. lia.
  - rewrite (IH m); [ lia | ].
    intros i Hi. apply (H (S i)). cbn [length]. lia.
Qed.




(** ** The bounds check *)

(** What the loop body does with a pair that is at the test of line 140. *)
Lemma screen_pair_at_bounds
    (L : Externals) (df : DataFrame) (base_market : string)
    (series_1 : series) (quote_market : string) (hl : float)
    (acc : list ScreeningResult) :
  reaches_bounds_check L df base_market series_1 quote_market hl ->
  screen_pair L df base_market series_1 quote_market acc
  = if out_of_bounds hl then Ok acc
    else Ok (acc ++ [mkResult base_market quote_market hl]).
Proof.
  intros (series_2 & spread & H2 & Hc & Hs & Ht & Hh).
  unfold screen_pair.
  rewrite H2. cbn [bind]. rewrite Hc. cbn [bind Z.eqb Pos.eqb negb].
  rewrite Hs. cbn [bind]. rewrite Ht. cbn [bind negb].
  rewrite Hh. reflexivity.
Qed.





(** C10.  When [calculate_half_life] returns NaN for a pair at the bounds
    check, both comparisons of line 140 are false, the pair is not discarded,
    and a result whose [half_life] is that NaN is appended to the list. *)
Theorem nan_half_life_is_appended
    (L : Externals) (df : DataFrame) (base_market : string)
    (series_1 : series) (quote_market : string) (hl : float)
    (acc : list ScreeningResult) :
  reaches_bounds_check L df base_market series_1 quote_market hl ->
  is_nan hl = true ->
  (hl <? 0)%float = false /\
  (24 <? hl)%float = false /\
  screen_pair L df base_market series_1 quote_market acc
  = Ok (acc ++ [mkResult base_market quote_market hl]).
Proof.
  intros Hreach Hnan.
  rewrite (screen_pair_at_bounds L df base_market series_1 quote_market hl acc
             Hreach).
  rewrite (out_of_bounds_nan hl Hnan).
  now rewrite (ltb_nan_l hl 0 Hnan), (ltb_nan_r 24 hl Hnan).
Qed.

Lemma nan_half_life_is_appended_witness :
  (nan <? 0)%float = false /\
  (24 <? nan)%float = false /\
  screen_pair Demo.lib Demo.table "B" Demo.flat "C" []
  = Ok ([] ++ [mkResult "B" "C" nan]).
Proof.
  apply (nan_half_life_is_appended Demo.lib Demo.table "B" Demo.flat "C"
           nan []).
  - exists Demo.flat, [0; 0; 0; 0; 0; 0; 0; 0; 0]%float.
    repeat split; vm_compute; reflexivity.
  - reflexivity.
Defined.

(** ** The enumeration of candidate pairs *)

Lemma for_each_flat_map {A B S} (body : B -> S -> result S)
    (f : A -> list B) (xs : list A) (s : S) :
  for_each body (flat_map f xs) s
  = for_each (fun x s' => for_each body (f x) s') xs s.
Proof.
  revert s. induction xs as [ | x xs IH]; intros s; [ reflexivity | ].
  cbn [flat_map for_each].
  generalize (f x) as ys. intros ys. revert s.
  induction ys as [ | y ys IHy]; intros s; cbn [app for_each bind].
  - apply IH.
  - destruct (body y s) as [s' | e]; cbn [bind]; [ apply IHy | reflexivity ].
Qed.

Lemma for_each_map {A B S} (body : B -> S -> result S) (g : A -> B)
    (xs : list A) (s : S) :
  for_each body (map g xs) s = for_each (fun x => body (g x)) xs s.
Proof.
  revert s. induction xs as [ | x xs IH]; intros s; [ reflexivity | ].
  cbn [map for_each]. destruct (body (g x) s); cbn [bind]; auto.
Qed.

Lemma for_each_ext_in {A S} (f g : A -> S -> result S) (xs : list A) (s : S) :
  (forall x s', In x xs -> f x s' = g x s') ->
  for_each f xs s = for_each g xs s.
Proof.
  revert s. induction xs as [ | x xs IH]; intros s H; [ reflexivity | ].
  cbn [for_each]. rewrite (H x s (or_introl eq_refl)).
  destruct (g x s); cbn [bind]; [ | reflexivity ].
  apply IH. intros y s' Hy. apply H. now right.
Qed.

Lemma for_each_app {A S} (body : A -> S -> result S) (xs ys : list A) (s : S) :
  for_each body (xs ++ ys) s
  = (s' <- for_each body xs s ;; for_each body ys s').
Proof.
  revert s. induction xs as [ | x xs IH]; intros s; [ reflexivity | ].
  cbn [app for_each]. destruct (body x s); cbn [bind]; auto.
Qed.

Lemma df_get_column (df : DataFrame) (label : string) :
  In label (columns_to_list df) -> exists s, df_get df label = Ok s.
Proof.
  unfold columns_to_list.
  induction df as [ | [l s] df IH]; cbn [map In df_get fst]; [ tauto | ].
  intros [-> | H].
  - rewrite String.eqb_refl. now exists s.
  - destruct (String.eqb l label); [ now exists s | now apply IH ].
Qed.

Lemma in_removelast {A} (x : A) (l : list A) : In x (removelast l) -> In x l.
Proof.
  rewrite removelast_firstn_len. intros H.
  rewrite <- (firstn_skipn (pred (length l)) l).
  apply in_or_app. now left.
Qed.

Lemma in_enumerate {A} (i : nat) (x : A) (l : list A) :
  In (i, x) (enumerate l) -> In x l.
Proof.
  unfold enumerate. apply in_combine_r.
Qed.

(** The nested loops run the body once on each candidate pair, in order. *)
Lemma screening_loop_visits {S} (df : DataFrame)
    (body : string -> series -> string -> S -> result S) (init : S) :
  screening_loop df body init
  = for_each (visit df body) (candidate_pairs (columns_to_list df)) init.
Proof.
  unfold screening_loop, candidate_pairs.
  rewrite for_each_flat_map.
  apply for_each_ext_in. intros [index base_market] s Hin.
  rewrite for_each_map.
  apply in_enumerate, in_removelast, df_get_column in Hin.
  destruct Hin as [series_1 H1]. rewrite H1. cbn [bind].
  apply for_each_ext_in. intros quote_market s' _.
  unfold visit. cbn [fst snd]. rewrite H1. reflexivity.
Qed.



Lemma skipn_as_nth {A} (l : list A) (k : nat) (d : A) :
  skipn k l = map (fun j => nth j l d) (seq k (length l - k)).
Proof.
  apply (nth_ext _ _ d (nth 0 l d)).
  - now rewrite length_skipn, length_map, length_seq.
  - intros i Hi. rewrite length_skipn in Hi.
    rewrite nth_skipn.
    rewrite (map_nth (fun j => nth j l d) (seq k (length l - k)) 0 i).
    now rewrite seq_nth by exact Hi.
Qed.

Lemma enumerate_removelast_as_nth {A} (l : list A) (d : A) :
  enumerate (removelast l)
  = map (fun i => (i, nth i l d)) (seq 0 (length l - 1)).
Proof.
  unfold enumerate.
  assert (Hlen : length (removelast l) = length l - 1).
  { rewrite removelast_firstn_len, length_firstn. lia. }
  rewrite Hlen.
  apply (nth_ext _ _ (0, d) (0, nth 0 l d)).
  - rewrite length_combine, length_map, length_seq, Hlen. lia.
  - intros i Hi.
    rewrite length_combine, length_seq, Hlen, Nat.min_id in Hi.
    rewrite combine_nth by (rewrite length_seq; exact (eq_sym Hlen)).
    rewrite (map_nth (fun i => (i, nth i l d)) (seq 0 (length l - 1)) 0 i).
    rewrite seq_nth by exact Hi. cbn [Nat.add]. f_equal.
    rewrite removelast_firstn_len, nth_firstn.
    destruct (Nat.ltb_spec i (pred (length l))); [ reflexivity | lia ].
Qed.

Lemma flat_map_map {A B C} (f : B -> list C) (g : A -> B) (l : list A) :
  flat_map f (map g l) = flat_map (fun x => f (g x)) l.
Proof.
  induction l as [ | x l IH]; [ reflexivity | ].
  cbn [map flat_map]. now rewrite IH.
Qed.

Lemma map_flat_map {A B C} (g : B -> C) (f : A -> list B) (l : list A) :
  map g (flat_map f l) = flat_map (fun x => map g (f x)) l.
Proof.
  induction l as [ | x l IH]; [ reflexivity | ].
  cbn [flat_map]. now rewrite map_app, IH.
Qed.

(** The pairs of labels visited are the labels at the index pairs. *)
Lemma candidate_pairs_by_index (markets : list string) :
  candidate_pairs markets
  = map (fun '(i, j) => (nth i markets "", nth j markets ""))
        (index_pairs (length markets)).
Proof.
  unfold candidate_pairs, index_pairs.
  rewrite (enumerate_removelast_as_nth markets ""), flat_map_map, map_flat_map.
  apply flat_map_ext. intros i.
  rewrite (skipn_as_nth markets (i + 1) ""), !map_map.
  replace (length markets - (i + 1)) with (length markets - 1 - i) by lia.
  reflexivity.
Qed.

Lemma in_index_pairs (n i j : nat) :
  In (i, j) (index_pairs n) <-> i < j < n.
Proof.
  unfold index_pairs. rewrite in_flat_map. split.
  - intros [x [Hx Hj]]. apply in_seq in Hx. apply in_map_iff in Hj.
    destruct Hj as [y [Hy Hj]]. injection Hy as -> ->.
    apply in_seq in Hj. lia.
  - intros H. exists i. split; [ apply in_seq; lia | ].
    apply in_map. apply in_seq. lia.
Qed.



Lemma length_index_rows (n a k : nat) :
  a + k <= n - 1 ->
  2 * length (flat_map (fun i => map (pair i) (seq (i + 1) (n - 1 - i)))
                       (seq a k))
  + 2 * k * a + k * k = 2 * k * (n - 1) + k.
Proof.
  revert a. induction k as [ | k IH]; intros a H; [ reflexivity | ].
  cbn [seq flat_map]. rewrite length_app, length_map, length_seq.
  specialize (IH (S a) ltac:(lia)). nia.
Qed.

Lemma length_index_pairs (n : nat) :
  length (index_pairs n) = n * (n - 1) / 2.
Proof.
  pose proof (length_index_rows n 0 (n - 1) ltac:(lia)) as H.
  fold (index_pairs n) in H.
  apply Nat.div_unique_exact; [ lia | nia ].
Qed.



(** ** The stand-in sorts meet the contract of [sort_values] *)

Section InsertionSort.

Variable test : float -> float -> bool.
Hypothesis test_le : forall x y, test x y = true -> (x <=? y)%float = true.
Hypothesis test_ge :
  forall x y, is_nan x = false -> is_nan y = false ->
              test x y = false -> (y <=? x)%float = true.

Lemma insert_by_perm (r : ScreeningResult) (l : list ScreeningResult) :
  Permutation (r :: l) (Demo.insert_by test r l).
Proof.
  induction l as [ | x l IH]; cbn [Demo.insert_by]; [ reflexivity | ].
  destruct (test (half_life r) (half_life x)); [ reflexivity | ].
  rewrite perm_swap. now constructor.
Qed.

Lemma insert_by_number (r : ScreeningResult) (l : list ScreeningResult) :
  Demo.is_number_row r = true ->
  Forall (fun x => Demo.is_number_row x = true) l ->
  Forall (fun x => Demo.is_number_row x = true) (Demo.insert_by test r l).
Proof.
  intros Hr Hl. apply (Permutation_Forall (insert_by_perm r l)).
  now constructor.
Qed.

Lemma insert_by_sorted (r : ScreeningResult) (l : list ScreeningResult) :
  Demo.is_number_row r = true ->
  Forall (fun x => Demo.is_number_row x = true) l ->
  Sorted half_life_le l ->
  Sorted half_life_le (Demo.insert_by test r l).
Proof.
  intros Hr Hl Hs.
  induction l as [ | x l IH]; cbn [Demo.insert_by].
  - repeat constructor.
  - inversion Hl as [ | ? ? Hx Hl']; subst.
    inversion Hs as [ | ? ? Hs' Hhd]; subst.
    destruct (test (half_life r) (half_life x)) eqn:E.
    + constructor; [ exact Hs | ].
      constructor. right. now apply test_le.
    + constructor; [ now apply IH | ].
      assert (Hxr : half_life_le x r).
      { right. apply test_ge; [ | | exact E ].
        - unfold Demo.is_number_row in Hr. now destruct (is_nan (half_life r)).
        - unfold Demo.is_number_row in Hx. now destruct (is_nan (half_life x)). }
      destruct l as [ | y l]; cbn [Demo.insert_by].
      * now constructor.
      * destruct (test (half_life r) (half_life y)); constructor;
          [ exact Hxr | now inversion Hhd ].
Qed.

Lemma insertion_sorted (l : list ScreeningResult) :
  Forall (fun x => Demo.is_number_row x = true) l ->
  Forall (fun x => Demo.is_number_row x = true)
         (fold_right (Demo.insert_by test) [] l) /\
  Sorted half_life_le (fold_right (Demo.insert_by test) [] l).
Proof.
  induction 1 as [ | x l Hx Hl [IHn IHs]]; cbn [fold_right].
  - split; constructor.
  - split; [ now apply insert_by_number | now apply insert_by_sorted ].
Qed.

Lemma insertion_perm (l : list ScreeningResult) :
  Permutation l (fold_right (Demo.insert_by test) [] l).
Proof.
  induction l as [ | x l IH]; cbn [fold_right]; [ reflexivity | ].
  rewrite <- insert_by_perm. now constructor.
Qed.

Lemma filter_split_perm (l : list ScreeningResult) :
  Permutation l (filter Demo.is_number_row l ++ filter Demo.is_nan_row l).
Proof.
  induction l as [ | x l IH]; [ reflexivity | ].
  cbn [filter]. unfold Demo.is_number_row at 1, Demo.is_nan_row at 1.
  destruct (is_nan (half_life x)); cbn [negb app].
  - now apply Permutation_cons_app.
  - now constructor.
Qed.

Lemma sorted_then_nan (l1 l2 : list ScreeningResult) :
  Sorted half_life_le l1 ->
  Forall (fun x => Demo.is_nan_row x = true) l2 ->
  Sorted half_life_le (l1 ++ l2).
Proof.
  intros H1 H2. induction H1 as [ | x l1 Hs IH Hhd]; cbn [app].
  - induction H2 as [ | y l2 Hy Hl2 IH2]; constructor; [ exact IH2 | ].
    destruct Hl2 as [ | z l2 Hz _]; constructor. now left.
  - constructor; [ exact IH | ].
    destruct Hhd as [ | y l1 Hxy]; cbn [app]; [ | now constructor ].
    destruct H2 as [ | z l2 Hz _]; constructor. now left.
Qed.

Lemma sort_by_contract (rows : list ScreeningResult) :
  Permutation rows (Demo.sort_by test rows) /\
  Sorted half_life_le (Demo.sort_by test rows).
Proof.
  unfold Demo.sort_by. split.
  - rewrite <- insertion_perm. apply filter_split_perm.
  - apply sorted_then_nan.
    + apply insertion_sorted. apply Forall_forall.
      intros x Hx. now apply filter_In in Hx.
    + apply Forall_forall. intros x Hx. now apply filter_In in Hx.
Qed.

End InsertionSort.

Lemma sort_keeping_ties_contract : sort_rows_contract Demo.lib.
Proof.
  intros rows. apply (sort_by_contract PrimFloat.leb).
  - trivial.
  - intros x y Hx Hy H.
    apply ltb_leb. rewrite (ltb_negb_leb y x Hy Hx). now rewrite H.
Qed.


(** ** The run as a whole *)

(** The three ways a run can end. *)
Lemma store_cointegration_results_cases (L : Externals) (df : DataFrame) :
  store_cointegration_results L df
  = match screening_loop df (screen_pair L df) [] with
    | Raise e => Raise e
    | Ok [] => Raise (KeyError "half_life")
    | Ok (r :: rest) =>
        Ok (mkFrame ["base_market"; "quote_market"; "half_life"]
                    (sort_rows L (r :: rest)), "saved")
    end.
Proof.
  unfold store_cointegration_results.
  destruct (screening_loop df (screen_pair L df) []) as [[ | r rest] | e];
    reflexivity.
Qed.




(** C8, as amended.  What the evaluation of a candidate pair raises is not
    caught: when the pairs before it have been evaluated without an
    exception, the exception ends [store_cointegration_results], whatever the
    pairs after it are, and no report is written. *)
Theorem failing_pair_ends_run
    (L : Externals) (df : DataFrame) (before after : list (string * string))
    (p : string * string) (acc : list ScreeningResult) (e : exn) :
  candidate_pairs (columns_to_list df) = before ++ p :: after ->
  for_each (visit df (screen_pair L df)) before [] = Ok acc ->
  visit df (screen_pair L df) p acc = Raise e ->
  store_cointegration_results L df = Raise e.
Proof.
  intros Hpairs Hbefore Hp.
  rewrite store_cointegration_results_cases, screening_loop_visits, Hpairs.
  rewrite for_each_app, Hbefore. cbn [bind for_each]. rewrite Hp.
  reflexivity.
Qed.

Lemma failing_pair_ends_run_witness :
  store_cointegration_results Demo.lib Demo.table_gap
  = Raise (ExternalError "MissingDataError: exog contains inf or nans").
Proof.
  apply (failing_pair_ends_run Demo.lib Demo.table_gap
           [] [("A", "B"); ("G", "B")] ("A", "G") []).
  - reflexivity.
  - reflexivity.
  - vm_compute. reflexivity.
Defined.

(** C8 as it was stated fails: in the table whose second series has a
    missing observation the pair A-G raises, and the run ends with that
    exception although the next pair, A-B, meets all criteria. *)
Lemma failing_pair_counterexample :
  candidate_pairs (columns_to_list Demo.table_gap)
  = [("A", "G"); ("A", "B"); ("G", "B")] /\
  visit Demo.table_gap (screen_pair Demo.lib Demo.table_gap) ("A", "G") []
  = Raise (ExternalError "MissingDataError: exog contains inf or nans") /\
  visit Demo.table_gap (screen_pair Demo.lib Demo.table_gap) ("A", "B") []
  = Ok [mkResult "A" "B" 0] /\
  store_cointegration_results Demo.lib Demo.table_gap
  = Raise (ExternalError "MissingDataError: exog contains inf or nans").
Proof.
  repeat split; vm_compute; reflexivity.
Qed.

(** C9: the run in which no pair is accepted.  The frame built from the
    empty list has no [half_life] column, [sort_values] raises [KeyError],
    and neither the file nor the string "saved" is produced. *)
Theorem empty_report_raises (L : Externals) (df : DataFrame) :
  screening_loop df (screen_pair L df) [] = Ok [] ->
  store_cointegration_results L df = Raise (KeyError "half_life").
Proof.
  intros H. now rewrite store_cointegration_results_cases, H.
Qed.

Lemma empty_report_raises_witness :
  store_cointegration_results Demo.lib_no_coint Demo.table_two
  = Raise (KeyError "half_life").
Proof.
  apply (empty_report_raises Demo.lib_no_coint Demo.table_two).
  vm_compute. reflexivity.
Defined.

(** * Further properties of the program *)

(** ** Statistics that are not numbers *)

(** A NaN among the p-value, the statistic and the 5% critical value never
    flags a pair as cointegrated. *)
Theorem nan_statistic_is_not_cointegrated
    (L : Externals) (series_1 series_2 : series) (r : CointResult)
    (c1 c5 c10 : float) :
  coint L series_1 series_2 = Ok r ->
  crit_value r = [c1; c5; c10] ->
  is_nan (pvalue r) = true \/ is_nan (coint_t r) = true \/ is_nan c5 = true ->
  calculate_cointegration L series_1 series_2 = Ok 0%Z.
Proof.
  intros Hc Hcrit Hnan. unfold calculate_cointegration.
  rewrite Hc. cbn [bind]. rewrite Hcrit. cbn [array_get nth_error bind].
  destruct Hnan as [H | [H | H]].
  - now rewrite (ltb_nan_l _ p_threshold H).
  - rewrite (ltb_nan_l _ c5 H). now rewrite andb_false_r.
  - rewrite (ltb_nan_r (coint_t r) c5 H). now rewrite andb_false_r.
Qed.

Lemma nan_statistic_is_not_cointegrated_witness :
  calculate_cointegration Probe.lib_nan_statistics Demo.zigzag Demo.flat
  = Ok 0%Z.
Proof.
  apply (nan_statistic_is_not_cointegrated Probe.lib_nan_statistics
           Demo.zigzag Demo.flat
           (mkCoint nan 0x1p-10
              [(-0x1.f333333333333p+1)%float;
               (-0x1.ab851eb851eb8p+1)%float;
               (-0x1.851eb851eb852p+1)%float])
           (-0x1.f333333333333p+1) (-0x1.ab851eb851eb8p+1)
           (-0x1.851eb851eb852p+1)).
  - vm_compute. reflexivity.
  - reflexivity.
  - right. left. reflexivity.
Defined.

(** A NaN statistic or a NaN 1% critical value is never judged stationary. *)
Theorem nan_statistic_is_not_stationary
    (L : Externals) (spread : series) (r : ADFResult) (c1 : float) :
  adfuller L spread = Ok r ->
  dict_get (adf_critical_values r) "1%" = Ok c1 ->
  is_nan (adf_stat r) = true \/ is_nan c1 = true ->
  test_for_stationarity L spread = Ok false.
Proof.
  intros Ha Hc Hnan. unfold test_for_stationarity.
  rewrite Ha. cbn [bind]. rewrite Hc. cbn [bind].
  destruct Hnan as [H | H].
  - now rewrite (ltb_nan_l _ c1 H).
  - now rewrite (ltb_nan_r (adf_stat r) c1 H).
Qed.

Lemma nan_statistic_is_not_stationary_witness :
  test_for_stationarity Probe.lib_nan_statistics Demo.flat = Ok false.
Proof.
  apply (nan_statistic_is_not_stationary Probe.lib_nan_statistics Demo.flat
           (mkADF nan [("1%", (-0x1.bc28f5c28f5c3p+1)%float);
                       ("5%", (-0x1.70a3d70a3d70ap+1)%float);
                       ("10%", (-0x1.4a3d70a3d70a4p+1)%float)])
           (-0x1.bc28f5c28f5c3p+1)).
  - reflexivity.
  - reflexivity.
  - left. reflexivity.
Defined.

(** ** Edge cases of the half-life estimate *)

(** A spread of at least two values reaches the regression with the filled
    lag and the filled differences. *)
Lemma calculate_half_life_regression (L : Externals) (spread : series) :
  2 <= length spread ->
  calculate_half_life L spread
  = (params <- OLS_fit L (filled_diff spread)
                 (add_constant L (filled_lag spread)) ;;
     slope <- array_get params 1 ;;
     Ok (round0 (- np_log_2 / slope)%float)).
Proof.
  intros Hlen.
  destruct spread as [ | s0 [ | s1 rest]]; cbn [length] in Hlen; try lia.
  reflexivity.
Qed.

(** On fewer than two values [calculate_half_life] raises [IndexError]
    before any regression is run, and so it does when the regression returns
    fewer than two coefficients. *)
Theorem calculate_half_life_index_errors (L : Externals) (spread : series) :
  (length spread < 2 -> calculate_half_life L spread = Raise IndexError) /\
  (forall params,
      2 <= length spread ->
      OLS_fit L (filled_diff spread) (add_constant L (filled_lag spread))
      = Ok params ->
      length params < 2 ->
      calculate_half_life L spread = Raise IndexError).
Proof.
  split.
  - intros Hlen.
    destruct spread as [ | s0 [ | s1 rest]]; cbn [length] in Hlen;
      try lia; reflexivity.
  - intros params Hlen Hfit Hshort.
    rewrite (calculate_half_life_regression L spread Hlen), Hfit.
    cbn [bind].
    destruct params as [ | a [ | b params]]; cbn [length] in Hshort;
      try lia; reflexivity.
Qed.

Lemma calculate_half_life_index_errors_witness :
  calculate_half_life Demo.lib [1]%float = Raise IndexError /\
  calculate_half_life (Probe.lib_with_params [1]%float) [1; 2; 3]%float
  = Raise IndexError.
Proof.
  split.
  - apply (proj1 (calculate_half_life_index_errors Demo.lib [1]%float)).
    simpl. lia.
  - apply (proj2 (calculate_half_life_index_errors
                    (Probe.lib_with_params [1]%float) [1; 2; 3]%float)
             [1]%float).
    + simpl. lia.
    + reflexivity.
    + simpl. lia.
Defined.

Lemma is_nan_eq_nan (x : float) : is_nan x = true -> x = nan.
Proof.
  intros H. apply is_nan_spec in H.
  rewrite <- (SF2Prim_Prim2SF x), H. reflexivity.
Qed.

Lemma div_nan_r (x y : float) : is_nan y = true -> is_nan (x / y)%float = true.
Proof.
  rewrite !is_nan_spec, div_spec. intros ->. unfold SF64div.
  now destruct (Prim2SF x).
Qed.

Lemma eqb_zero (x : float) :
  (x =? 0)%float = true -> x = 0%float \/ x = (-0)%float.
Proof.
  rewrite FloatAxioms.eqb_spec. intros H.
  rewrite <- (SF2Prim_Prim2SF x).
  destruct (Prim2SF x) as [[ | ] | [ | ] | | [ | ] m e];
    try discriminate; cbn [SF2Prim]; auto.
Qed.

(** A NaN slope gives a NaN half-life, which the test of line 140 lets
    through. *)
Theorem nan_slope_gives_nan_half_life
    (L : Externals) (spread : series) (params : list float) (beta : float) :
  2 <= length spread ->
  OLS_fit L (filled_diff spread) (add_constant L (filled_lag spread))
  = Ok params ->
  nth_error params 1 = Some beta ->
  is_nan beta = true ->
  calculate_half_life L spread = Ok nan /\ out_of_bounds nan = false.
Proof.
  intros Hlen Hfit Hbeta Hnan.
  rewrite (calculate_half_life_regression L spread Hlen), Hfit.
  cbn [bind]. unfold array_get. rewrite Hbeta. cbn [bind].
  rewrite (is_nan_eq_nan _ (div_nan_r (- np_log_2) beta Hnan)).
  split; reflexivity.
Qed.

Lemma nan_slope_gives_nan_half_life_witness :
  calculate_half_life (Probe.lib_with_params [1; nan]%float) [1; 2; 3]%float
  = Ok nan /\ out_of_bounds nan = false.
Proof.
  apply (nan_slope_gives_nan_half_life (Probe.lib_with_params [1; nan]%float)
           [1; 2; 3]%float [1; nan]%float nan).
  - simpl. lia.
  - reflexivity.
  - reflexivity.
  - reflexivity.
Defined.

(** A slope of zero raises nothing: the half-life is infinite, negative for
    +0 and positive for -0, and the test of line 140 rejects it. *)
Theorem zero_slope_is_rejected
    (L : Externals) (spread : series) (params : list float) (beta : float) :
  2 <= length spread ->
  OLS_fit L (filled_diff spread) (add_constant L (filled_lag spread))
  = Ok params ->
  nth_error params 1 = Some beta ->
  (beta =? 0)%float = true ->
  exists hl,
    calculate_half_life L spread = Ok hl /\
    (hl = neg_infinity \/ hl = infinity) /\
    out_of_bounds hl = true.
Proof.
  intros Hlen Hfit Hbeta Hzero.
  rewrite (calculate_half_life_regression L spread Hlen), Hfit.
  cbn [bind]. unfold array_get. rewrite Hbeta. cbn [bind].
  eexists. split; [ reflexivity | ].
  destruct (eqb_zero beta Hzero) as [-> | ->]; split;
    try reflexivity; [ left | right ]; reflexivity.
Qed.

Lemma zero_slope_is_rejected_witness :
  exists hl,
    calculate_half_life (Probe.lib_with_params [1; 0]%float) [1; 2; 3]%float
    = Ok hl /\
    (hl = neg_infinity \/ hl = infinity) /\
    out_of_bounds hl = true.
Proof.
  apply (zero_slope_is_rejected (Probe.lib_with_params [1; 0]%float)
           [1; 2; 3]%float [1; 0]%float 0%float).
  - simpl. lia.
  - reflexivity.
  - reflexivity.
  - reflexivity.
Defined.

(** ** Short-circuiting of the filter chain *)

(** A pair whose cointegration flag is not 1 is discarded, and nothing else
    is looked at: the outcome is the same whatever the rolling regression,
    the unit-root test and the half-life regression would do, be it
    raising. *)
Theorem not_cointegrated_is_discarded
    (L L' : Externals) (df : DataFrame) (base_market quote_market : string)
    (series_1 series_2 : series) (flag : Z) (acc : list ScreeningResult) :
  df_get df quote_market = Ok series_2 ->
  calculate_cointegration L series_1 series_2 = Ok flag ->
  flag <> 1%Z ->
  coint L' = coint L ->
  screen_pair L' df base_market series_1 quote_market acc = Ok acc.
Proof.
  intros H2 Hc Hflag Hsame. unfold screen_pair.
  rewrite H2. cbn [bind].
  assert (Hc' : calculate_cointegration L' series_1 series_2 = Ok flag).
  { unfold calculate_cointegration in *. now rewrite Hsame. }
  rewrite Hc'. cbn [bind].
  destruct (Z.eqb_spec flag 1); [ contradiction | reflexivity ].
Qed.

Lemma not_cointegrated_is_discarded_witness :
  screen_pair Demo.lib_no_coint Demo.table_two "A" Demo.zigzag "B" [] = Ok [].
Proof.
  apply (not_cointegrated_is_discarded Demo.lib_no_coint Demo.lib_no_coint
           Demo.table_two "A" "B" Demo.zigzag Demo.flat 0%Z []).
  - reflexivity.
  - vm_compute. reflexivity.
  - discriminate.
  - reflexivity.
Defined.

(** A cointegrated pair whose spread is not judged stationary is discarded
    without its half-life being estimated: the outcome does not depend on
    [add_constant] and [OLS]. *)
Theorem not_stationary_is_discarded
    (L L' : Externals) (df : DataFrame) (base_market quote_market : string)
    (series_1 series_2 spread : series) (acc : list ScreeningResult) :
  df_get df quote_market = Ok series_2 ->
  calculate_cointegration L series_1 series_2 = Ok 1%Z ->
  pair_spread L df base_market quote_market = Ok spread ->
  test_for_stationarity L spread = Ok false ->
  coint L' = coint L ->
  RollingOLS_fit L' = RollingOLS_fit L ->
  adfuller L' = adfuller L ->
  screen_pair L' df base_market series_1 quote_market acc = Ok acc.
Proof.
  intros H2 Hc Hs Ht Hco Hro Had. unfold screen_pair.
  rewrite H2. cbn [bind].
  assert (Hc' : calculate_cointegration L' series_1 series_2 = Ok 1%Z).
  { unfold calculate_cointegration in *. now rewrite Hco. }
  assert (Hs' : pair_spread L' df base_market quote_market = Ok spread).
  { unfold pair_spread, calculate_hedge_ratio_and_spread in *.
    now rewrite Hro. }
  assert (Ht' : test_for_stationarity L' spread = Ok false).
  { unfold test_for_stationarity in *. now rewrite Had. }
  rewrite Hc'. cbn [bind Z.eqb Pos.eqb negb].
  rewrite Hs'. cbn [bind]. rewrite Ht'. reflexivity.
Qed.

Lemma not_stationary_is_discarded_witness :
  screen_pair Demo.lib_adf_between Demo.table "A" Demo.zigzag "B" [] = Ok [].
Proof.
  apply (not_stationary_is_discarded Demo.lib_adf_between
           Demo.lib_adf_between Demo.table "A" "B" Demo.zigzag Demo.flat
           [-1; 1; -1; 1; -1; 1; -1; 1; -1]%float []);
    try reflexivity; vm_compute; reflexivity.
Defined.

(** ** What the loops keep *)

(** The body appends at most one result, for the pair it is called on and
    with a half-life that passed the test of line 140. *)
Lemma screen_pair_step
    (L : Externals) (df : DataFrame) (base_market : string)
    (series_1 : series) (quote_market : string)
    (acc acc' : list ScreeningResult) :
  screen_pair L df base_market series_1 quote_market acc = Ok acc' ->
  acc' = acc \/
  exists hl, acc' = acc ++ [mkResult base_market quote_market hl] /\
             out_of_bounds hl = false.
Proof.
  unfold screen_pair.
  destruct (df_get df quote_market) as [series_2 | e]; cbn [bind];
    [ | discriminate ].
  destruct (calculate_cointegration L series_1 series_2) as [flag | e];
    cbn [bind]; [ | discriminate ].
  destruct (negb (flag =? 1)%Z); [ intros H; injection H; auto | ].
  destruct (pair_spread L df base_market quote_market) as [spread | e];
    cbn [bind]; [ | discriminate ].
  destruct (test_for_stationarity L spread) as [stationary | e];
    cbn [bind]; [ | discriminate ].
  destruct (negb stationary); [ intros H; injection H; auto | ].
  destruct (calculate_half_life L spread) as [hl | e];
    cbn [bind]; [ | discriminate ].
  destruct (out_of_bounds hl) eqn:E; intros H; injection H as <-; auto.
  right. now exists hl.
Qed.

Lemma screening_steps
    (L : Externals) (df : DataFrame) (pairs : list (string * string))
    (acc acc' : list ScreeningResult) :
  for_each (visit df (screen_pair L df)) pairs acc = Ok acc' ->
  exists added,
    acc' = acc ++ added /\
    subsequence (map pair_of added) pairs /\
    Forall (fun r => out_of_bounds (half_life r) = false) added.
Proof.
  revert acc. induction pairs as [ | [b q] pairs IH]; intros acc H.
  - cbn [for_each] in H. injection H as <-. exists [].
    rewrite app_nil_r. repeat constructor.
  - cbn [for_each] in H. unfold visit at 1 in H. cbn [fst snd] in H.
    destruct (df_get df b) as [series_1 | e]; cbn [bind] in H;
      [ | discriminate ].
    destruct (screen_pair L df b series_1 q acc) as [acc1 | e] eqn:E;
      cbn [bind] in H; [ | discriminate ].
    destruct (IH acc1 H) as (added & -> & Hsub & Hall).
    destruct (screen_pair_step L df b series_1 q acc acc1 E)
      as [-> | (hl & -> & Hhl)].
    + exists added. split; [ reflexivity | ].
      split; [ now constructor | exact Hall ].
    + exists (mkResult b q hl :: added). rewrite <- app_assoc.
      split; [ reflexivity | ].
      split; [ cbn [map]; now constructor | now constructor ].
Qed.

Lemma subsequence_length {A} (l1 l2 : list A) :
  subsequence l1 l2 -> length l1 <= length l2.
Proof.
  induction 1; cbn [length]; lia.
Qed.

Lemma subsequence_In {A} (l1 l2 : list A) (x : A) :
  subsequence l1 l2 -> In x l1 -> In x l2.
Proof.
  induction 1 as [ | y l1 l2 _ IH | y l1 l2 _ IH]; cbn [In]; intuition.
Qed.

(** The accepted pairs are candidate pairs in the order of the enumeration,
    each candidate giving at most one result: at most n(n-1)/2 results, and
    in each the base column stands before the quote column in the table. *)
Theorem accepted_pairs_follow_enumeration
    (L : Externals) (df : DataFrame) (accepted : list ScreeningResult) :
  screening_loop df (screen_pair L df) [] = Ok accepted ->
  let markets := columns_to_list df in
  let n := length markets in
  subsequence (map pair_of accepted) (candidate_pairs markets) /\
  length accepted <= n * (n - 1) / 2 /\
  (forall r, In r accepted ->
             exists i j, i < j < n /\
                         base_market r = nth i markets "" /\
                         quote_market r = nth j markets "").
Proof.
  intros H markets n. rewrite screening_loop_visits in H.
  destruct (screening_steps L df _ [] accepted H) as (added & -> & Hsub & _).
  cbn [app]. fold markets in Hsub.
  split; [ exact Hsub | ].
  split.
  - apply subsequence_length in Hsub.
    rewrite length_map, candidate_pairs_by_index, length_map,
      length_index_pairs in Hsub.
    exact Hsub.
  - intros r Hr.
    assert (Hin : In (pair_of r) (candidate_pairs markets)).
    { apply (subsequence_In _ _ _ Hsub). now apply in_map. }
    rewrite candidate_pairs_by_index in Hin. apply in_map_iff in Hin.
    destruct Hin as ([i j] & Heq & Hij). apply in_index_pairs in Hij.
    exists i, j. unfold pair_of in Heq. injection Heq as Hb Hq.
    now repeat split.
Qed.

Lemma accepted_pairs_follow_enumeration_witness :
  let accepted :=
    [mkResult "A" "B" 0; mkResult "A" "C" 0; mkResult "A" "D" 1;
     mkResult "B" "C" nan; mkResult "B" "D" 1; mkResult "C" "D" 1] in
  let markets := columns_to_list Demo.table in
  let n := length markets in
  subsequence (map pair_of accepted) (candidate_pairs markets) /\
  length accepted <= n * (n - 1) / 2 /\
  (forall r, In r accepted ->
             exists i j, i < j < n /\
                         base_market r = nth i markets "" /\
                         quote_market r = nth j markets "").
Proof.
  apply (accepted_pairs_follow_enumeration Demo.lib Demo.table).
  vm_compute. reflexivity.
Defined.

(** Every row of a written report has a half-life that is NaN or lies in
    [0, 24], whenever [sort_values] returns the rows it was given. *)
Theorem reported_half_lives_in_bounds
    (L : Externals) (df : DataFrame) (report : Frame) (signal : string) :
  sort_rows_contract L ->
  store_cointegration_results L df = Ok (report, signal) ->
  Forall (fun r => in_bounds_or_nan (half_life r)) (frame_rows report).
Proof.
  intros Hsort. rewrite store_cointegration_results_cases.
  destruct (screening_loop df (screen_pair L df) []) as [[ | r rest] | e] eqn:E;
    try discriminate.
  intros H. injection H as <- _. cbn [frame_rows].
  apply (Permutation_Forall (proj1 (Hsort (r :: rest)))).
  rewrite screening_loop_visits in E.
  destruct (screening_steps L df _ [] _ E) as (added & Heq & _ & Hall).
  cbn [app] in Heq. rewrite Heq.
  apply (Forall_impl _ (P := fun r => out_of_bounds (half_life r) = false));
    [ | exact Hall ].
  intros x Hx. unfold in_bounds_or_nan.
  destruct (is_nan (half_life x)) eqn:En; [ now left | right ].
  rewrite (out_of_bounds_number _ En) in Hx.
  now destruct (in_closed_interval (half_life x)).
Qed.

Lemma reported_half_lives_in_bounds_witness :
  Forall (fun r => in_bounds_or_nan (half_life r))
    [mkResult "A" "B" 0; mkResult "A" "C" 0; mkResult "A" "D" 1;
     mkResult "B" "D" 1; mkResult "C" "D" 1; mkResult "B" "C" nan].
Proof.
  apply (reported_half_lives_in_bounds Demo.lib Demo.table
           (mkFrame ["base_market"; "quote_market"; "half_life"]
              [mkResult "A" "B" 0; mkResult "A" "C" 0; mkResult "A" "D" 1;
               mkResult "B" "D" 1; mkResult "C" "D" 1; mkResult "B" "C" nan])
           "saved" sort_keeping_ties_contract).
  vm_compute. reflexivity.
Defined.

(** On a table with fewer than two columns no pair is formed and the run
    raises [KeyError], whatever the external routines are. *)
Theorem fewer_than_two_columns_raises (L : Externals) (df : DataFrame) :
  length (columns_to_list df) < 2 ->
  store_cointegration_results L df = Raise (KeyError "half_life").
Proof.
  intros Hlen. rewrite store_cointegration_results_cases, screening_loop_visits.
  assert (Hno : candidate_pairs (columns_to_list df) = []).
  { apply length_zero_iff_nil.
    rewrite candidate_pairs_by_index, length_map, length_index_pairs.
    destruct (length (columns_to_list df)) as [ | [ | n]];
      [ reflexivity | reflexivity | lia ]. }
  rewrite Hno. reflexivity.
Qed.

Lemma fewer_than_two_columns_raises_witness :
  store_cointegration_results Demo.lib [("A", Demo.zigzag)]
  = Raise (KeyError "half_life").
Proof.
  apply (fewer_than_two_columns_raises Demo.lib [("A", Demo.zigzag)]).
  simpl. lia.
Defined.

(** ** The spread handed to the stationarity test *)

Lemma df_get_missing (df : DataFrame) (label : string) :
  ~ In label (columns_to_list df) -> df_get df label = Raise (KeyError label).
Proof.
  unfold columns_to_list.
  induction df as [ | [l s] df IH]; cbn [map In df_get fst];
    [ reflexivity | ].
  intros H. destruct (String.eqb_spec l label) as [-> | _]; [ tauto | ].
  apply IH. tauto.
Qed.

(** The pair frame holds the two columns of the table. *)
Lemma pair_frame_columns (df : DataFrame) (base_market quote_market : string)
    (base quote : series) :
  df_get df base_market = Ok base ->
  df_get df quote_market = Ok quote ->
  exists frame,
    loc_columns df [base_market; quote_market] = Ok frame /\
    df_get frame base_market = Ok base /\
    df_get frame quote_market = Ok quote.
Proof.
  intros Hb Hq. exists [(base_market, base); (quote_market, quote)].
  cbn [loc_columns]. rewrite Hb, Hq. cbn [bind df_get].
  rewrite !String.eqb_refl. split; [ reflexivity | ].
  split; [ reflexivity | ].
  destruct (String.eqb_spec base_market quote_market) as [E | _];
    [ | reflexivity ].
  rewrite E in Hb. congruence.
Qed.

Lemma dropna_rows_bound (base quote hedge_ratio spread : series) :
  length (dropna (pair_rows base quote hedge_ratio spread))
  <= count_defined (firstn (length base) hedge_ratio).
Proof.
  unfold dropna, pair_rows, count_defined.
  revert quote hedge_ratio spread.
  induction base as [ | b base IH]; intros [ | q quote] [ | h hedge]
    [ | s spread]; cbn [combine filter length firstn]; try lia.
  specialize (IH quote hedge spread).
  unfold row_notna at 1.
  destruct (is_nan b), (is_nan q), (is_nan h), (is_nan s);
    cbn [negb andb length]; lia.
Qed.

(** The spread a pair hands on contains no NaN and has no more rows than
    the table; when the rolling parameters are undefined on the first 167
    rows, it has at most N - 167 rows. *)
Theorem pair_spread_is_gap_free
    (L : Externals) (df : DataFrame) (base_market quote_market : string)
    (base quote spread : series) :
  df_get df base_market = Ok base ->
  df_get df quote_market = Ok quote ->
  pair_spread L df base_market quote_market = Ok spread ->
  Forall (fun x => is_nan x = false) spread /\
  length spread <= length base /\
  (forall params,
      RollingOLS_fit L base quote 168 = Ok params ->
      rolling_params_shape 168 (length base) params ->
      length spread <= length base + 1 - 168).
Proof.
  intros Hb Hq. unfold pair_spread.
  destruct (pair_frame_columns df base_market quote_market base quote Hb Hq)
    as (frame & -> & Hfb & Hfq).
  cbn [bind]. unfold calculate_hedge_ratio_and_spread.
  rewrite Hfb, Hfq. cbn [bind].
  destruct (RollingOLS_fit L base quote 168) as [hedge | e]; cbn [bind];
    [ | discriminate ].
  destruct (length hedge =? length base) eqn:Elen; cbn [negb bind fst snd];
    [ | discriminate ].
  apply Nat.eqb_eq in Elen.
  set (sp := series_sub base (series_mul quote hedge)).
  intros H. injection H as <-.
  split.
  { apply Forall_forall. intros x Hx. apply in_map_iff in Hx.
    destruct Hx as ([[[b q] h] s] & <- & Hin). apply filter_In in Hin.
    destruct Hin as [_ Hrow]. cbn [snd]. unfold row_notna in Hrow.
    apply andb_true_iff in Hrow. destruct Hrow as [_ Hs].
    now destruct (is_nan s). }
  pose proof (dropna_rows_bound base quote hedge sp) as Hbound.
  rewrite <- Elen, firstn_all in Hbound.
  split.
  { rewrite length_map. unfold count_defined in Hbound.
    pose proof (filter_length_le (fun x => negb (is_nan x)) hedge). lia. }
  intros params Hp [Hn Hnan]. injection Hp as <-.
  rewrite length_map.
  rewrite (count_defined_after hedge 167) in Hbound; [ lia | ].
  intros i Hi. apply Hnan. lia.
Qed.

Lemma pair_spread_is_gap_free_witness :
  let spread := [-1; 1; -1; 1; -1; 1; -1; 1; -1]%float in
  Forall (fun x => is_nan x = false) spread /\
  length spread <= length Demo.zigzag /\
  (forall params,
      RollingOLS_fit Demo.lib Demo.zigzag Demo.flat 168 = Ok params ->
      rolling_params_shape 168 (length Demo.zigzag) params ->
      length spread <= length Demo.zigzag + 1 - 168).
Proof.
  apply (pair_spread_is_gap_free Demo.lib Demo.table "A" "B"
           Demo.zigzag Demo.flat).
  - reflexivity.
  - reflexivity.
  - vm_compute. reflexivity.
Defined.

(** [calculate_hedge_ratio_and_spread] raises [KeyError] on a label that is
    not a column, hands on what RollingOLS raises, and raises [ValueError]
    when RollingOLS returns another number of rows than the frame has. *)
Theorem calculate_hedge_ratio_and_spread_errors
    (L : Externals) (df : DataFrame) (base_market quote_market : string) :
  (~ In base_market (columns_to_list df) ->
   calculate_hedge_ratio_and_spread L df base_market quote_market
   = Raise (KeyError base_market)) /\
  (In base_market (columns_to_list df) ->
   ~ In quote_market (columns_to_list df) ->
   calculate_hedge_ratio_and_spread L df base_market quote_market
   = Raise (KeyError quote_market)) /\
  (forall base quote,
      df_get df base_market = Ok base ->
      df_get df quote_market = Ok quote ->
      (forall e, RollingOLS_fit L base quote 168 = Raise e ->
                 calculate_hedge_ratio_and_spread L df base_market
                   quote_market = Raise e) /\
      (forall params, RollingOLS_fit L base quote 168 = Ok params ->
                      length params <> length base ->
                      exists msg,
                        calculate_hedge_ratio_and_spread L df base_market
                          quote_market = Raise (ValueError msg))).
Proof.
  unfold calculate_hedge_ratio_and_spread. split; [ | split ].
  - intros H. now rewrite (df_get_missing df base_market H).
  - intros Hb Hq. destruct (df_get_column df base_market Hb) as [s ->].
    cbn [bind]. now rewrite (df_get_missing df quote_market Hq).
  - intros base quote -> ->. cbn [bind]. split.
    + now intros e ->.
    + intros params -> Hlen. cbn [bind].
      apply Nat.eqb_neq in Hlen. rewrite Hlen. cbn [negb]. eauto.
Qed.

Lemma calculate_hedge_ratio_and_spread_errors_witness :
  calculate_hedge_ratio_and_spread Demo.lib Demo.table "Z" "A"
  = Raise (KeyError "Z").
Proof.
  apply (proj1 (calculate_hedge_ratio_and_spread_errors Demo.lib Demo.table
                  "Z" "A")).
  simpl. intuition discriminate.
Defined.

(** ** The rolling z-score *)

Lemma sub_nan_l (x y : float) : is_nan x = true -> is_nan (x - y)%float = true.
Proof.
  rewrite !is_nan_spec, sub_spec. now intros ->.
Qed.

Lemma div_nan_l (x y : float) : is_nan x = true -> is_nan (x / y)%float = true.
Proof.
  rewrite !is_nan_spec, div_spec. now intros ->.
Qed.

(** Dividing by a zero raises nothing: the quotient is NaN or infinite. *)
Lemma div_by_zero (x y : float) :
  (y =? 0)%float = true ->
  is_nan (x / y)%float = true \/
  (x / y)%float = infinity \/ (x / y)%float = neg_infinity.
Proof.
  rewrite FloatAxioms.eqb_spec. intros Hy.
  assert (Hz : exists s, Prim2SF y = S754_zero s).
  { destruct (Prim2SF y) as [s | [ | ] | | [ | ] m e]; try discriminate.
    now exists s. }
  destruct Hz as [s Hz].
  rewrite is_nan_spec, <- (SF2Prim_Prim2SF (x / y)), div_spec, Hz.
  unfold SF64div.
  destruct (Prim2SF x) as [sx | sx | | sx mx ex]; cbn [SFdiv]; auto;
    destruct (xorb sx s); cbn [SF2Prim]; auto.
Qed.

(** When the rolling mean and deviation come back with one row per
    observation, so does the z-score, with [(x - mean) / std] on every row: a
    row whose mean or deviation is undefined is undefined, and a row whose
    deviation is zero raises nothing and is NaN or infinite. *)
Theorem calculate_zscore_rows
    (R : Rolling) (spread : series) (window : nat) (mean std x : series) :
  rolling_mean R spread window = Ok mean ->
  rolling_std R spread window = Ok std ->
  rolling_mean R spread 1 = Ok x ->
  length mean = length spread ->
  length std = length spread ->
  length x = length spread ->
  exists zscore,
    calculate_zscore R spread window = Ok zscore /\
    length zscore = length spread /\
    forall i, i < length spread ->
      nth i zscore nan
      = ((nth i x nan - nth i mean nan) / nth i std nan)%float /\
      (is_nan (nth i mean nan) = true \/ is_nan (nth i std nan) = true ->
       is_nan (nth i zscore nan) = true) /\
      ((nth i std nan =? 0)%float = true ->
       is_nan (nth i zscore nan) = true \/
       nth i zscore nan = infinity \/ nth i zscore nan = neg_infinity).
Proof.
  intros Hm Hs Hx Lm Ls Lx.
  exists (series_div (series_sub x mean) std).
  split.
  { unfold calculate_zscore. rewrite Hm. cbn [bind]. rewrite Hs. cbn [bind].
    rewrite Hx. reflexivity. }
  split.
  { unfold series_div, series_sub. rewrite !length_map2. lia. }
  intros i Hi.
  assert (Hrow : nth i (series_div (series_sub x mean) std) nan
                 = ((nth i x nan - nth i mean nan) / nth i std nan)%float).
  { unfold series_div, series_sub.
    rewrite nth_map2; [ | rewrite length_map2; lia | lia ].
    rewrite nth_map2 by lia. reflexivity. }
  rewrite Hrow. split; [ reflexivity | ]. split.
  - intros [H | H].
    + apply div_nan_l. now apply sub_nan_r.
    + now apply div_nan_r.
  - apply div_by_zero.
Qed.

Lemma calculate_zscore_rows_witness :
  let mean := Probe.rolling_values Probe.mean_of Probe.sample 3 in
  let std := Probe.rolling_values Probe.std_of Probe.sample 3 in
  exists zscore,
    calculate_zscore Probe.rolling Probe.sample 3 = Ok zscore /\
    length zscore = length Probe.sample /\
    forall i, i < length Probe.sample ->
      nth i zscore nan
      = ((nth i Probe.sample nan - nth i mean nan) / nth i std nan)%float /\
      (is_nan (nth i mean nan) = true \/ is_nan (nth i std nan) = true ->
       is_nan (nth i zscore nan) = true) /\
      ((nth i std nan =? 0)%float = true ->
       is_nan (nth i zscore nan) = true \/
       nth i zscore nan = infinity \/ nth i zscore nan = neg_infinity).
Proof.
  apply (calculate_zscore_rows Probe.rolling Probe.sample 3
           (Probe.rolling_values Probe.mean_of Probe.sample 3)
           (Probe.rolling_values Probe.std_of Probe.sample 3)
           Probe.sample);
    vm_compute; reflexivity.
Defined.
